(** * HTTP tunnel listener (transport/internet/http/hub.go) and the reverse
    portal's static picker (app/reverse): a shallow embedding and its
    verified properties.

    The Go code is effectful: it calls the response writer, the done signal,
    the logger, the file locker and the HTTP server.  Those calls are the
    operations of a small free monad [Proc]; the methods of hub.go are
    programs in that monad, written statement by statement, and [run] executes
    a program against a [World] (the stores the code shares with other
    goroutines, and the trace of the calls it made to its collaborators). *)

From Stdlib Require Import ZArith Lia Bool Ascii.
From stdpp Require Import base strings list gmap pretty.

Local Open Scope Z_scope.
Local Open Scope string_scope.

(** ** Data *)

(** Go's [error] values that the code creates or passes along:
    [io.ErrClosedPipe], and errors returned by collaborators. *)
Inductive error : Type :=
| ErrClosedPipe
| ErrExternal (msg : string).

(** A value a goroutine panics with. *)
Inductive Panic : Type :=
| PanicInterfaceConversion (wanted : string).

(** [net.IP] is a byte slice. *)
Definition IP : Type := list Byte.byte.

(** [net.Addr] as hub.go builds it: [&net.TCPAddr{IP, Port}] or
    [&net.UnixAddr{Name, Net}]. *)
Inductive NetAddr : Type :=
| TCPAddr (ip : IP) (port : Z)
| UnixAddr (name net : string).

(** [net.AddressFamily] with its [IsIP] method. *)
Inductive AddressFamily : Type :=
| AddressFamilyIPv4
| AddressFamilyIPv6
| AddressFamilyDomain.

Definition IsIP (f : AddressFamily) : bool :=
  match f with
  | AddressFamilyIPv4 | AddressFamilyIPv6 => true
  | AddressFamilyDomain => false
  end.

(** An [io.Writer]; [wr_flusher] tells whether the dynamic type also
    implements [http.Flusher] (the result of the type assertion
    [w.(http.Flusher)]).  An [http.ResponseWriter] is such a writer. *)
Record Writer : Type := { wr_id : nat; wr_flusher : bool }.

(** A [*done.Instance]: a reference into the store of signals. *)
Definition Done : Type := nat.

(** The request body, an [io.ReadCloser]. *)
Definition Body : Type := nat.

(** [*internet.FileLocker]. *)
Record FileLocker : Type := { fl_path : string }.

(** The [locker] field of a [Listener] is written by the goroutine that
    [Listen] starts, after [Listen] has returned the listener: the field
    lives in the store, and the struct holds its location. *)
Definition LockerCell : Type := nat.

Record flushWriter : Type := { fw_w : Writer; fw_d : Done }.

(** The members of [common.ChainedClosable{done, request.Body}]. *)
Inductive Closable : Type :=
| ClosableDone (d : Done)
| ClosableBody (b : Body).

(** The connection that [net.NewConnection] builds from its options. *)
Record Connection : Type := {
  conn_reader : Body;
  conn_writer : flushWriter;
  conn_onclose : list Closable;
  conn_local : NetAddr;
  conn_remote : NetAddr
}.

Inductive Severity : Type := SeverityInfo | SeverityWarning.

(** What [newError(...).Base(err).AtWarning().WriteToLog(id)] hands to the
    logger. *)
Record LogEntry : Type := {
  log_severity : Severity;
  log_message : list string;
  log_base : option error;
  log_session : option Z
}.

(** The TLS configuration of the stream settings, and what
    [GetTLSConfig(tls.WithNextProto(...))] makes of it. *)
Definition XTLSConfig : Type := nat.
Record GoTLSConfig : Type := { tls_from : XTLSConfig; tls_NextProtos : list string }.

(** [http.Server.Handler]: the listener itself, or the listener wrapped by
    [h2c.NewHandler]. *)
Inductive ServerHandler : Type := HandlerListener | HandlerH2C.

Record Server : Type := {
  srv_Addr : string;
  srv_TLSConfig : option GoTLSConfig;
  srv_Handler : ServerHandler;
  srv_ReadHeaderTimeout : Z
}.

Record SocketConfig : Type := { AcceptProxyProtocol : bool }.

(** The [net.Listener] that [internet.ListenSystem] returns. *)
Definition StreamListener : Type := nat.

(** ** Operations of the collaborators *)

Inductive Eff : Type -> Type :=
(* http.ResponseWriter, io.Writer, http.Flusher *)
| HeaderSet (w : Writer) (key value : string) : Eff unit
| WriteHeader (w : Writer) (code : Z) : Eff unit
| WriterWrite (w : Writer) (p : list Byte.byte) : Eff (Z * option error)
| Flush (w : Writer) : Eff unit
(* done.Instance *)
| DoneNew : Eff Done
| DoneDone (d : Done) : Eff bool
| DoneClose (d : Done) : Eff unit
| DoneWait (d : Done) : Eff unit
(* request.Body *)
| BodyClose (b : Body) : Eff (option error)
(* logging *)
| WriteToLog (e : LogEntry) : Eff unit
| FprintlnStderr (s : string) : Eff unit
(* the call of an internet.ConnHandler *)
| CallHandler (c : Connection) : Eff unit
(* the locker field of a Listener, and the FileLocker *)
| LockerCellNew : Eff LockerCell
| LockerLoad (c : LockerCell) : Eff (option FileLocker)
| LockerStore (c : LockerCell) (fl : FileLocker) : Eff unit
| Release (fl : FileLocker) : Eff unit
(* http.Server and internet.ListenSystem *)
| ServerClose (s : Server) : Eff (option error)
| ListenSystem (addr : NetAddr) (sock : option SocketConfig) : Eff (StreamListener + error)
| Serve (s : Server) (sl : StreamListener) : Eff (option error)
| ServeTLS (s : Server) (sl : StreamListener) (certFile keyFile : string) : Eff (option error).

(** ** Programs *)

Inductive Proc (A : Type) : Type :=
| Ret (a : A)
| Throw (p : Panic)
| Vis {R : Type} (e : Eff R) (k : R -> Proc A)
| Go (body : Proc unit) (k : Proc A).

Arguments Ret {A} a.
Arguments Throw {A} p.
Arguments Vis {A R} e k.
Arguments Go {A} body k.

Fixpoint bind {A B : Type} (p : Proc A) (f : A -> Proc B) : Proc B :=
  match p with
  | Ret a => f a
  | Throw pn => Throw pn
  | Vis e k => Vis e (fun r => bind (k r) f)
  | Go body k => Go body (bind k f)
  end.

Definition trigger {R : Type} (e : Eff R) : Proc R := Vis e Ret.

Declare Scope proc_scope.
Delimit Scope proc_scope with proc.
Notation "'let*' x ':=' p 'in' q" := (bind p (fun x => q))
  (at level 10, x name, p at level 200, q at level 200, only parsing) : proc_scope.
Notation "p ;; q" := (bind p (fun _ => q))
  (at level 100, q at level 200, only parsing, right associativity) : proc_scope.
Local Open Scope proc_scope.

(** ** The world a program runs in *)

Definition Event : Type := { R : Type & Eff R }.
Definition ev {R : Type} (e : Eff R) : Event := existT R e.

Record World : Type := {
  dones : list bool;                    (* the signals: fired or not *)
  lockers : list (option FileLocker);   (* the locker fields *)
  goroutines : list (Proc unit);        (* started by a go statement, not yet run *)
  trace : list Event                    (* calls made to the collaborators, in order *)
}.

(** Modelled from the spec: [done.Instance] is defined in common/signal/done,
    which is not among the sources.  The spec: a one-shot broadcast flag;
    [signal()] marks it done, idempotently; [isDone()] polls it without
    blocking; [wait()] suspends the caller until it has been signalled, and
    returns at once when it already has.  [is_done] reads the flag; [handle]
    below gives [DoneNew], [DoneDone], [DoneClose] and [DoneWait] this
    meaning. *)
Definition is_done (w : World) (d : Done) : bool :=
  default false (dones w !! d).

Definition emit {R : Type} (e : Eff R) (w : World) : World :=
  {| dones := dones w; lockers := lockers w; goroutines := goroutines w;
     trace := trace w ++ [ev e] |}.

Definition set_dones (ds : list bool) (w : World) : World :=
  {| dones := ds; lockers := lockers w; goroutines := goroutines w;
     trace := trace w |}.

Definition set_lockers (ls : list (option FileLocker)) (w : World) : World :=
  {| dones := dones w; lockers := ls; goroutines := goroutines w;
     trace := trace w |}.

Definition spawn (body : Proc unit) (w : World) : World :=
  {| dones := dones w; lockers := lockers w;
     goroutines := goroutines w ++ [body]; trace := trace w |}.

(** What the collaborators answer: the results of the calls whose
    implementation is outside hub.go. *)
Record Env : Type := {
  env_write : Writer -> list Byte.byte -> World -> Z * option error;
  env_body_close : Body -> World -> option error;
  env_server_close : Server -> World -> option error;
  env_listen_system : NetAddr -> option SocketConfig -> World -> StreamListener + error;
  env_serve : Server -> StreamListener -> World -> option error;
  env_serve_tls : Server -> StreamListener -> World -> option error
}.

(** One operation.  [None]: the caller is suspended ([<-done.Wait()] on a
    signal that has not fired).  The store operations leave the trace alone;
    every call to a collaborator is appended to it. *)
Definition handle (env : Env) {R : Type} (e : Eff R) (w : World) : option (R * World) :=
  match e in Eff R return option (R * World) with
  | HeaderSet _ _ _ => Some (tt, emit e w)
  | WriteHeader _ _ => Some (tt, emit e w)
  | WriterWrite wr p => Some (env_write env wr p w, emit e w)
  | Flush _ => Some (tt, emit e w)
  | DoneNew => Some (length (dones w), set_dones (dones w ++ [false]) w)
  | DoneDone d => Some (is_done w d, w)
  | DoneClose d => Some (tt, set_dones (<[d:=true]> (dones w)) w)
  | DoneWait d => if is_done w d then Some (tt, w) else None
  | BodyClose b => Some (env_body_close env b w, emit e w)
  | WriteToLog _ => Some (tt, emit e w)
  | FprintlnStderr _ => Some (tt, emit e w)
  | CallHandler _ => Some (tt, emit e w)
  | LockerCellNew => Some (length (lockers w), set_lockers (lockers w ++ [None]) w)
  | LockerLoad c => Some (mjoin (lockers w !! c), w)
  | LockerStore c fl => Some (tt, set_lockers (<[c:=Some fl]> (lockers w)) w)
  | Release _ => Some (tt, emit e w)
  | ServerClose s => Some (env_server_close env s w, emit e w)
  | ListenSystem a s => Some (env_listen_system env a s w, emit e w)
  | Serve s sl => Some (env_serve env s sl w, emit e w)
  | ServeTLS s sl _ _ => Some (env_serve_tls env s sl w, emit e w)
  end.

Inductive Result (A : Type) : Type :=
| Returned (a : A) (w : World)
| Blocked (p : Proc A) (w : World)
| Panicked (pn : Panic) (w : World).

Arguments Returned {A} a w.
Arguments Blocked {A} p w.
Arguments Panicked {A} pn w.

Definition result_world {A : Type} (r : Result A) : World :=
  match r with
  | Returned _ w | Blocked _ w | Panicked _ w => w
  end.

(** Runs a program until it returns, panics, or is suspended; a suspended
    program is kept, to be resumed in a later world. *)
Fixpoint run (env : Env) {A : Type} (p : Proc A) (w : World) : Result A :=
  match p with
  | Ret a => Returned a w
  | Throw pn => Panicked pn w
  | Vis e k =>
      match handle env e w with
      | Some (r, w') => run env (k r) w'
      | None => Blocked p w
      end
  | Go body k => run env k (spawn body w)
  end.

(** ** hub.go *)

(** [func (fw flushWriter) Write(p []byte) (n int, err error)] *)
Definition flushWriter_Write (fw : flushWriter) (p : list Byte.byte)
  : Proc (Z * option error) :=
  let* isDone := trigger (DoneDone (fw_d fw)) in
  if (isDone : bool) then Ret (0, Some ErrClosedPipe)
  else
    let* r := trigger (WriterWrite (fw_w fw) p) in
    (if wr_flusher (fw_w fw) then trigger (Flush (fw_w fw)) else Ret tt) ;;
    Ret r.

(** Modelled from the spec: the transport's [Config] is declared in
    config.pb.go, which is not among the sources.  The spec's configuration
    surface: the allowed hosts (empty means any) and the path prefix. *)
Record Config : Type := { Host : list string; Path : string }.

(** Modelled from the spec: [Config.isValidHost] is defined in config.go,
    which is not among the sources.  The spec: the request's Host must be in
    the configured allowed-host set, and an empty allowed-host set matches any
    host. *)
Definition isValidHost (c : Config) (host : string) : bool :=
  match Host c with
  | [] => true
  | hosts => existsb (String.eqb host) hosts
  end.

Fixpoint ends_with_slash (s : string) : bool :=
  match s with
  | EmptyString => false
  | String c EmptyString => Ascii.eqb c "/"%char
  | String _ rest => ends_with_slash rest
  end.

(** Modelled from the spec: [Config.getNormalizedPath] is defined in
    config.go, which is not among the sources.  The spec: a non-empty prefix
    is normalized to start and end with a slash; the default is the single
    slash. *)
Definition getNormalizedPath (c : Config) : string :=
  if String.eqb (Path c) EmptyString then "/"
  else
    let p := if String.prefix "/" (Path c) then Path c else "/" ++ Path c in
    if ends_with_slash p then p else p ++ "/".

(** [strings.HasPrefix(s, prefix)] *)
Definition HasPrefix (s prefix : string) : bool := String.prefix prefix s.

Record Listener : Type := {
  server : Server;
  handler : Connection -> Proc unit;   (* internet.ConnHandler *)
  local : NetAddr;
  config : Config;
  locker : LockerCell                   (* for unix domain socket *)
}.

(** [func (l *Listener) Addr() net.Addr] *)
Definition Listener_Addr (l : Listener) : NetAddr := local l.

(** [func (l *Listener) Close() error] *)
Definition Listener_Close (l : Listener) : Proc (option error) :=
  let* lk := trigger (LockerLoad (locker l)) in
  match lk with
  | Some fl =>
      trigger (FprintlnStderr "RELEASE LOCK") ;;
      trigger (Release fl)
  | None => Ret tt
  end ;;
  trigger (ServerClose (server l)).

(** [l.handler(conn)]: the call is recorded, then the handler's body runs. *)
Definition call_handler (h : Connection -> Proc unit) (c : Connection) : Proc unit :=
  trigger (CallHandler c) ;; h c.

Record Request : Type := {
  req_Host : string;
  req_URL_Path : string;
  req_RemoteAddr : string;
  req_Header : gmap string (list string);
  req_Body : Body
}.

(** A dynamically typed value ([interface{}]) stored in
    [MemoryStreamConfig.ProtocolSettings]. *)
Inductive ProtocolSettingsValue : Type :=
| SettingsNil
| SettingsHTTPConfig (c : Config)
| SettingsOther (typeName : string).

Record MemoryStreamConfig : Type := {
  ProtocolSettings : ProtocolSettingsValue;
  SecuritySettings : option XTLSConfig;
  SocketSettings : option SocketConfig
}.

(** What [ctx.Value(key)] can hold, and the session id that
    [session.ExportIDToError(ctx)] reads. *)
Inductive CtxValue : Type :=
| CtxFileLocker (fl : FileLocker)
| CtxOther (typeName : string).

Record Context : Type := {
  ctx_values : gmap string CtxValue;
  ctx_session : option Z
}.

Inductive Network : Type := Network_Unknown | Network_TCP | Network_UDP.

(** [time.Second * 4], in nanoseconds. *)
Definition four_seconds : Z := 1000000000 * 4.

(** [net.Destination], over the type of [net.Address]. *)
Record Destination (A : Type) : Type := {
  dest_Network : Network;
  dest_Address : A;
  dest_Port : Z
}.
Arguments dest_Network {A} d.
Arguments dest_Address {A} d.
Arguments dest_Port {A} d.

(** The packages common/net, common/protocol/http, common/serial and
    transport/internet/tls are not among the sources: what hub.go calls in
    them is a parameter of the development. *)
Class NetAPI : Type := {
  Address : Type;                                  (* net.Address *)
  Address_IP : Address -> IP;
  Address_Domain : Address -> string;
  Address_Family : Address -> AddressFamily;
  Address_String : Address -> string;
  Port_String : Z -> string;
  ParseDestination : string -> Destination Address + error;
  ParseXForwardedFor : gmap string (list string) -> list Address;
  ConfigFromStreamSettings : MemoryStreamConfig -> option XTLSConfig
}.

Section Hub.
Context {api : NetAPI}.

(** [func (l *Listener) ServeHTTP(writer http.ResponseWriter, request *http.Request)] *)
Definition ServeHTTP (l : Listener) (writer : Writer) (request : Request) : Proc unit :=
  let host := req_Host request in
  if negb (isValidHost (config l) host) then
    trigger (WriteHeader writer 404)
  else
  let path := getNormalizedPath (config l) in
  if negb (HasPrefix (req_URL_Path request) path) then
    trigger (WriteHeader writer 404)
  else
  trigger (HeaderSet writer "Cache-Control" "no-store") ;;
  trigger (WriteHeader writer 200) ;;
  (if wr_flusher writer then trigger (Flush writer) else Ret tt) ;;
  let remoteAddr := Listener_Addr l in
  let* remoteAddr :=
    match ParseDestination (req_RemoteAddr request) with
    | inr err =>
        trigger (WriteToLog
          {| log_severity := SeverityInfo;
             log_message := ["failed to parse request remote addr: ";
                             req_RemoteAddr request];
             log_base := Some err;
             log_session := None |}) ;;
        Ret remoteAddr
    | inl dest =>
        Ret (TCPAddr (Address_IP (dest_Address dest)) (dest_Port dest))
    end in
  let forwardedAddrs := ParseXForwardedFor (req_Header request) in
  let remoteAddr :=
    match forwardedAddrs with
    | a :: _ =>
        if IsIP (Address_Family a) then TCPAddr (Address_IP a) 0 else remoteAddr
    | [] => remoteAddr
    end in
  let* done := trigger DoneNew in
  let conn :=
    {| conn_reader := req_Body request;
       conn_writer := {| fw_w := writer; fw_d := done |};
       conn_onclose := [ClosableDone done; ClosableBody (req_Body request)];
       conn_local := Listener_Addr l;
       conn_remote := remoteAddr |} in
  call_handler (handler l) conn ;;
  trigger (DoneWait done).

(** The body of the goroutine that [Listen] starts. *)
Definition Listen_goroutine (ctx : Context) (address : Address) (port : Z)
    (streamSettings : MemoryStreamConfig) (config : option XTLSConfig)
    (server : Server) (cell : LockerCell) : Proc unit :=
  let serve (streamListener : StreamListener) : Proc unit :=
    match config with
    | None =>
        let* err := trigger (Serve server streamListener) in
        match err with
        | Some e =>
            trigger (WriteToLog
              {| log_severity := SeverityInfo;
                 log_message := ["stoping serving H2C"];
                 log_base := Some e;
                 log_session := ctx_session ctx |})
        | None => Ret tt
        end
    | Some _ =>
        let* err := trigger (ServeTLS server streamListener EmptyString EmptyString) in
        match err with
        | Some e =>
            trigger (WriteToLog
              {| log_severity := SeverityInfo;
                 log_message := ["stoping serving TLS"];
                 log_base := Some e;
                 log_session := ctx_session ctx |})
        | None => Ret tt
        end
    end in
  if (port =? 0)%Z then (* unix *)
    let* r := trigger (ListenSystem (UnixAddr (Address_Domain address) "unix")
                                    (SocketSettings streamSettings)) in
    match r with
    | inr err =>
        trigger (WriteToLog
          {| log_severity := SeverityInfo;
             log_message := ["failed to listen on "; Address_String address];
             log_base := Some err;
             log_session := ctx_session ctx |})
    | inl streamListener =>
        match ctx_values ctx !! Address_Domain address with
        | None => Ret tt
        | Some (CtxFileLocker fl) => trigger (LockerStore cell fl)
        | Some (CtxOther _) => Throw (PanicInterfaceConversion "*internet.FileLocker")
        end ;;
        serve streamListener
    end
  else (* tcp *)
    let* r := trigger (ListenSystem (TCPAddr (Address_IP address) port)
                                    (SocketSettings streamSettings)) in
    match r with
    | inr err =>
        trigger (WriteToLog
          {| log_severity := SeverityInfo;
             log_message := ["failed to listen on "; Address_String address;
                             ":"; Port_String port];
             log_base := Some err;
             log_session := ctx_session ctx |})
    | inl streamListener => serve streamListener
    end.

(** [func Listen(ctx, address, port, streamSettings, handler) (internet.Listener, error)].
    The listener's [server] field is assigned once, before the goroutine
    starts and before [Listen] returns: the struct is built with it. *)
Definition Listen (ctx : Context) (address : Address) (port : Z)
    (streamSettings : MemoryStreamConfig) (handler : Connection -> Proc unit)
  : Proc (Listener * option error) :=
  match ProtocolSettings streamSettings with
  | SettingsHTTPConfig httpSettings =>
      let* cell := trigger LockerCellNew in
      let local :=
        if (port =? 0)%Z then UnixAddr (Address_Domain address) "unix"
        else TCPAddr (Address_IP address) port in
      let config := ConfigFromStreamSettings streamSettings in
      let server :=
        match config with
        | None =>
            {| srv_Addr := Address_String address ++ ":" ++ Port_String port;
               srv_TLSConfig := None;
               srv_Handler := HandlerH2C;
               srv_ReadHeaderTimeout := four_seconds |}
        | Some c =>
            {| srv_Addr := Address_String address ++ ":" ++ Port_String port;
               srv_TLSConfig := Some {| tls_from := c; tls_NextProtos := ["h2"] |};
               srv_Handler := HandlerListener;
               srv_ReadHeaderTimeout := four_seconds |}
        end in
      match SocketSettings streamSettings with
      | Some s =>
          if AcceptProxyProtocol s then
            trigger (WriteToLog
              {| log_severity := SeverityWarning;
                 log_message := ["accepting PROXY protocol"];
                 log_base := None;
                 log_session := ctx_session ctx |})
          else Ret tt
      | None => Ret tt
      end ;;
      let listener :=
        {| server := server; handler := handler; local := local;
           config := httpSettings; locker := cell |} in
      Go (Listen_goroutine ctx address port streamSettings config server cell)
         (Ret (listener, None))
  | SettingsNil | SettingsOther _ =>
      Throw (PanicInterfaceConversion "*http.Config")
  end.

End Hub.

(** Modelled from the spec: the connection's methods are defined in
    common/net (connection.go) and common (ChainedClosable), which are not
    among the sources.  The spec: the write side of the Connection is the
    flush adapter, and its close callback closes both the Synchronization
    Signal and the request body. *)
Definition Connection_Write (c : Connection) (p : list Byte.byte)
  : Proc (Z * option error) :=
  flushWriter_Write (conn_writer c) p.

Definition Closable_Close (c : Closable) : Proc (option error) :=
  match c with
  | ClosableDone d => trigger (DoneClose d) ;; Ret None
  | ClosableBody b => trigger (BodyClose b)
  end.

Fixpoint ChainedClosable_Close (cs : list Closable) : Proc (list error) :=
  match cs with
  | [] => Ret []
  | c :: rest =>
      let* e := Closable_Close c in
      let* es := ChainedClosable_Close rest in
      Ret (match e with Some x => x :: es | None => es end)
  end.

Definition Connection_Close (c : Connection) : Proc (list error) :=
  ChainedClosable_Close (conn_onclose c).

(** ** What a trace shows *)

(** The events a run added to the trace of the world it started in. *)
Definition events_since (w w' : World) : list Event :=
  drop (length (trace w)) (trace w').

Definition call_of (e : Event) : option Connection :=
  match projT2 e with
  | CallHandler c => Some c
  | _ => None
  end.

(** The connections the handler was called with, in order. *)
Definition handler_calls (t : list Event) : list Connection := omap call_of t.

Definition status_of (wr : Writer) (e : Event) : option Z :=
  match projT2 e with
  | WriteHeader w code => if Nat.eqb (wr_id w) (wr_id wr) then Some code else None
  | _ => None
  end.

(** The status of the response: the code of the first [WriteHeader]. *)
Definition response_status (wr : Writer) (t : list Event) : option Z :=
  head (omap (status_of wr) t).

Definition release_of (e : Event) : option FileLocker :=
  match projT2 e with
  | Release fl => Some fl
  | _ => None
  end.

(** The locks released, in order. *)
Definition releases (t : list Event) : list FileLocker := omap release_of t.






(** The policy of [ServeHTTP], in the words of the spec: the host is not in
    the allowed-host set when that set is non-empty, or the path does not
    start with the normalized prefix. *)
Definition rejected (c : Config) (request : Request) : Prop :=
  (Host c <> [] /\ ~ In (req_Host request) (Host c))
  \/ HasPrefix (req_URL_Path request) (getNormalizedPath c) = false.


(** The steps of [ServeHTTP] on an accepted request, up to the call of the
    handler, as data: the calls made before it (lines 76-91), the connection
    built (lines 82-108), and the world in which the handler's body starts.
    [ServeHTTP_accepted] below proves that the code runs exactly so. *)
Section HubSteps.
Context {api : NetAPI}.





End HubSteps.

(** ** The reverse portal's picker (app/reverse) *)

Module Reverse.

(** Modelled from the spec: app/reverse/portal.go is not among the sources
    (only its test is).  The spec: a Worker is one multiplexed session with a
    liveness state (registering, active, draining, closed), an
    open-sub-stream count and a declared capacity; it is available when its
    session is open and has spare stream capacity. *)
Inductive WorkerState : Type := Registering | Active | Draining | Closed.

Record Worker : Type := {
  session : nat;
  state : WorkerState;
  openStreams : nat;
  capacity : nat
}.

Definition IsAvailable (w : Worker) : bool :=
  match state w with
  | Active => Nat.ltb (openStreams w) (capacity w)
  | _ => false
  end.

Definition IsClosed (w : Worker) : bool :=
  match state w with
  | Closed => true
  | _ => false
  end.

Inductive PickError : Type := ErrNoAvailableWorker.

(** Modelled from the spec: the static picker is constructed with a fixed
    list of workers, possibly empty, and never discovers new ones. *)
Record StaticMuxPicker : Type := { workers : list Worker }.

Definition NewStaticMuxPicker (ws : list Worker)
  : StaticMuxPicker * option PickError :=
  ({| workers := ws |}, None).

(** Modelled from the spec: the picker iterates the list and returns the
    first available worker, evicting the workers it observed to be closed. *)
Fixpoint pick (ws : list Worker) : option Worker * list Worker :=
  match ws with
  | [] => (None, [])
  | w :: rest =>
      if IsAvailable w then (Some w, w :: rest)
      else
        let '(found, kept) := pick rest in
        (found, if IsClosed w then kept else w :: kept)
  end.

(** Modelled from the spec: [pickAvailable] fails with a distinguishable
    no-available-worker error, and no worker, when the pool is empty or every
    worker reports unavailable.  The result is the worker (a pointer, [None]
    for nil), the error, and the picker after the call. *)
Definition PickAvailable (p : StaticMuxPicker)
  : option Worker * option PickError * StaticMuxPicker :=
  match pick (workers p) with
  | (Some w, kept) => (Some w, None, {| workers := kept |})
  | (None, kept) => (None, Some ErrNoAvailableWorker, {| workers := kept |})
  end.

End Reverse.

(** ** Concrete collaborators, for the examples *)

Definition world0 : World :=
  {| dones := []; lockers := []; goroutines := []; trace := [] |}.

(** Writers accept every byte, closing succeeds, the socket binds, and the
    server stops with the error [http.Server.Serve] always returns. *)
Definition env_ok : Env :=
  {| env_write := fun _ p _ => (Z.of_nat (length p), None);
     env_body_close := fun _ _ => None;
     env_server_close := fun _ _ => None;
     env_listen_system := fun _ _ _ => inl 0%nat;
     env_serve := fun _ _ _ => Some (ErrExternal "http: Server closed");
     env_serve_tls := fun _ _ _ => Some (ErrExternal "http: Server closed") |}.


(** A stand-in for [net.Address]: an IP with its printed form, or a domain
    name. *)
Inductive SampleAddress : Type :=
| SampleIP (text : string) (ip : IP)
| SampleDomain (name : string).

Definition ip_203_0_113_9 : IP := [Byte.xcb; Byte.x00; Byte.x71; Byte.x09].
Definition ip_198_51_100_7 : IP := [Byte.xc6; Byte.x33; Byte.x64; Byte.x07].

Definition endpoint_address : SampleAddress := SampleIP "203.0.113.9" ip_203_0_113_9.
Definition forwarded_address : SampleAddress := SampleIP "198.51.100.7" ip_198_51_100_7.

(** A stand-in for the parsers: it knows one remote endpoint and one
    forwarded address, and takes every other forwarded entry for a domain. *)
Definition sample_api : NetAPI :=
  {| Address := SampleAddress;
     Address_IP := fun a => match a with SampleIP _ ip => ip | SampleDomain _ => [] end;
     Address_Domain := fun a =>
       match a with SampleIP _ _ => EmptyString | SampleDomain n => n end;
     Address_Family := fun a =>
       match a with
       | SampleIP _ _ => AddressFamilyIPv4
       | SampleDomain _ => AddressFamilyDomain
       end;
     Address_String := fun a =>
       match a with SampleIP text _ => text | SampleDomain n => n end;
     Port_String := fun p => pretty p;
     ParseDestination := fun s =>
       if String.eqb s "203.0.113.9:4000"
       then inl {| dest_Network := Network_Unknown;
                   dest_Address := endpoint_address;
                   dest_Port := 4000 |}
       else inr (ErrExternal "missing port in address");
     ParseXForwardedFor := fun h =>
       match h !! "X-Forwarded-For" with
       | Some (v :: _) =>
           if String.eqb v "198.51.100.7" then [forwarded_address]
           else [SampleDomain v]
       | _ => []
       end;
     ConfigFromStreamSettings := fun s => SecuritySettings s |}.

Definition sample_writer : Writer := {| wr_id := 1; wr_flusher := true |}.

Definition sample_config : Config :=
  {| Host := ["example.com"]; Path := "/tunnel" |}.

Definition sample_server : Server :=
  {| srv_Addr := "203.0.113.1:443"; srv_TLSConfig := None;
     srv_Handler := HandlerH2C; srv_ReadHeaderTimeout := four_seconds |}.

(** A handler that writes two bytes to the connection and closes it. *)
Definition echo_handler (c : Connection) : Proc unit :=
  Connection_Write c [Byte.x68; Byte.x69] ;;
  Connection_Close c ;;
  Ret tt.

(** A handler that hands the connection on and returns at once. *)
Definition idle_handler (c : Connection) : Proc unit := Ret tt.

Definition sample_listener (h : Connection -> Proc unit) : Listener :=
  {| server := sample_server; handler := h;
     local := TCPAddr [Byte.xcb; Byte.x00; Byte.x71; Byte.x01] 443;
     config := sample_config; locker := 0%nat |}.

Definition sample_request (host path remote : string) (xff : list string) : Request :=
  {| req_Host := host; req_URL_Path := path; req_RemoteAddr := remote;
     req_Header := match xff with
                   | [] => ∅
                   | _ => {[ "X-Forwarded-For" := xff ]}
                   end;
     req_Body := 7%nat |}.



Definition sample_ctx : Context := {| ctx_values := ∅; ctx_session := Some 42 |}.

Definition sample_settings (ps : ProtocolSettingsValue) : MemoryStreamConfig :=
  {| ProtocolSettings := ps; SecuritySettings := None; SocketSettings := None |}.

(** A world in which the locker field at location 0 holds a file lock. *)
Definition locked_world : World :=
  {| dones := [];
     lockers := [Some {| fl_path := "/run/xray.sock.lock" |}];
     goroutines := [];
     trace := [] |}.

(** A caller that streams several slices through the flush adapter, one
    [Write] after the other, and collects what each call returned. *)
Fixpoint flushWriter_WriteAll (fw : flushWriter) (ps : list (list Byte.byte))
  : Proc (list (Z * option error)) :=
  match ps with
  | [] => Ret []
  | p :: rest =>
      let* r := flushWriter_Write fw p in
      let* rs := flushWriter_WriteAll fw rest in
      Ret (r :: rs)
  end.

(** The calls one [Write] on an open stream makes to its destination. *)
Definition write_events (wr : Writer) (p : list Byte.byte) : list Event :=
  ev (WriterWrite wr p) :: (if wr_flusher wr then [ev (Flush wr)] else []).




Definition socket_lock : FileLocker := {| fl_path := "/run/xray.sock.lock" |}.






(** The destination accepts nothing: every write fails. *)
Definition env_write_fails : Env :=
  {| env_write := fun _ _ _ => (0, Some (ErrExternal "broken pipe"));
     env_body_close := fun _ _ => None;
     env_server_close := fun _ _ => Some (ErrExternal "close failed");
     env_listen_system := fun _ _ _ => inl 0%nat;
     env_serve := fun _ _ _ => None;
     env_serve_tls := fun _ _ _ => None |}.

(** ** Running programs: general facts *)

Local Open Scope list_scope.

Section RunFacts.
Variable env : Env.

Lemma run_bind {A B : Type} (p : Proc A) (f : A -> Proc B) (w : World) :
  run env (bind p f) w =
  match run env p w with
  | Returned a w' => run env (f a) w'
  | Blocked p' w' => Blocked (bind p' f) w'
  | Panicked pn w' => Panicked pn w'
  end.
Proof.
  revert B f w.
  induction p as [A a | A pn | A R e k IH | A body _ k IH]; intros B f w; simpl.
  - reflexivity.
  - reflexivity.
  - destruct (handle env e w) as [[r w'] |]; [apply IH | reflexivity].
  - apply IH.
Qed.

(** A collaborator call only appends to the trace. *)
Lemma handle_trace {R : Type} (e : Eff R) (w w' : World) (r : R) :
  handle env e w = Some (r, w') -> exists t, trace w' = trace w ++ t.
Proof.
  destruct e; simpl; intros H;
    try (injection H as _ <-; simpl; eauto; exists []; symmetry; apply app_nil_r).
  destruct (is_done w d); [| discriminate].
  injection H as _ <-. exists []. symmetry. apply app_nil_r.
Qed.

Lemma run_trace {A : Type} (p : Proc A) (w : World) :
  exists t, trace (result_world (run env p w)) = trace w ++ t.
Proof.
  revert w.
  induction p as [A a | A pn | A R e k IH | A body _ k IH]; intros w; simpl.
  - exists []. symmetry. apply app_nil_r.
  - exists []. symmetry. apply app_nil_r.
  - destruct (handle env e w) as [[r w'] |] eqn:He.
    + destruct (handle_trace e w w' r He) as [t1 Ht1].
      destruct (IH r w') as [t2 Ht2].
      exists (t1 ++ t2). rewrite Ht2, Ht1. symmetry. apply app_assoc.
    + exists []. symmetry. apply app_nil_r.
  - destruct (IH (spawn body w)) as [t Ht]. exists t. exact Ht.
Qed.

(** A fired signal stays fired: no operation resets one. *)
Lemma handle_done {R : Type} (e : Eff R) (w w' : World) (r : R) (d : Done) :
  handle env e w = Some (r, w') -> is_done w d = true -> is_done w' d = true.
Proof.
  unfold is_done.
  destruct e; simpl; intros H Hd; try (simplify_eq; exact Hd).
  - simplify_eq. simpl.
    destruct (dones w !! d) as [b |] eqn:Hl; [| simpl in Hd; discriminate].
    rewrite (lookup_app_l_Some _ _ _ _ Hl). exact Hd.
  - simplify_eq. simpl.
    destruct (decide (d0 = d)) as [-> | Hne].
    + destruct (dones w !! d) as [b |] eqn:Hl; [| simpl in Hd; discriminate].
      rewrite list_lookup_insert_eq; [reflexivity |].
      eapply lookup_lt_Some. exact Hl.
    + rewrite list_lookup_insert_ne by exact Hne. exact Hd.
  - unfold is_done in H.
    destruct (default false (dones w !! d0)); [| discriminate].
    simplify_eq. exact Hd.
Qed.

Lemma run_done {A : Type} (p : Proc A) (w : World) (d : Done) :
  is_done w d = true -> is_done (result_world (run env p w)) d = true.
Proof.
  revert w.
  induction p as [A a | A pn | A R e k IH | A body _ k IH]; intros w Hd; simpl.
  - exact Hd.
  - exact Hd.
  - destruct (handle env e w) as [[r w'] |] eqn:He.
    + apply IH. eapply handle_done; eassumption.
    + exact Hd.
  - apply IH. exact Hd.
Qed.

End RunFacts.

Lemma events_since_app (w w' : World) (t : list Event) :
  trace w' = trace w ++ t -> events_since w w' = t.
Proof.
  intros H. unfold events_since. rewrite H. apply drop_app_length.
Qed.

(** ** The flush adapter *)

(** C2: [flushWriter.Write] on a signal that is already done fails with the
    closed-pipe error, returns zero bytes written and calls nothing (the
    world is unchanged); otherwise it writes the bytes to the destination,
    then flushes the destination when it supports explicit flush, and returns
    what the destination's write returned. *)
Theorem flushWriter_Write_closed_or_flushed
    (env : Env) (fw : flushWriter) (p : list Byte.byte) (w : World) :
  (is_done w (fw_d fw) = true ->
     run env (flushWriter_Write fw p) w = Returned (0, Some ErrClosedPipe) w)
  /\ (is_done w (fw_d fw) = false ->
      exists w',
        run env (flushWriter_Write fw p) w
          = Returned (env_write env (fw_w fw) p w) w'
        /\ events_since w w'
           = ev (WriterWrite (fw_w fw) p)
             :: (if wr_flusher (fw_w fw) then [ev (Flush (fw_w fw))] else [])).
Proof.
  split; intros Hd; unfold flushWriter_Write; simpl; rewrite Hd; simpl.
  - reflexivity.
  - destruct (wr_flusher (fw_w fw)); simpl; eexists; (split; [reflexivity |]);
      apply events_since_app; simpl; rewrite <- ?app_assoc; reflexivity.
Qed.

Lemma flushWriter_Write_closed_or_flushed_witness :
  run env_ok (flushWriter_Write {| fw_w := sample_writer; fw_d := 0%nat |}
                [Byte.x68; Byte.x69])
      {| dones := [true]; lockers := []; goroutines := []; trace := [] |}
    = Returned (0, Some ErrClosedPipe)
        {| dones := [true]; lockers := []; goroutines := []; trace := [] |}
  /\ exists w',
      run env_ok (flushWriter_Write {| fw_w := sample_writer; fw_d := 0%nat |}
                    [Byte.x68; Byte.x69])
          {| dones := [false]; lockers := []; goroutines := []; trace := [] |}
        = Returned (2, None) w'
      /\ trace w' = [ev (WriterWrite sample_writer [Byte.x68; Byte.x69]);
                     ev (Flush sample_writer)].
Proof.
  split.
  - apply (flushWriter_Write_closed_or_flushed env_ok
             {| fw_w := sample_writer; fw_d := 0%nat |} [Byte.x68; Byte.x69]
             {| dones := [true]; lockers := []; goroutines := []; trace := [] |}).
    reflexivity.
  - destruct (flushWriter_Write_closed_or_flushed env_ok
                {| fw_w := sample_writer; fw_d := 0%nat |} [Byte.x68; Byte.x69]
                {| dones := [false]; lockers := []; goroutines := []; trace := [] |})
      as [_ H].
    destruct (H eq_refl) as [w' [Hrun Hev]].
    exists w'. split; [exact Hrun |]. exact Hev.
Defined.

(** Normalises the trace of a world reached by a straight run, and reads
    off the events added since the start. *)
Ltac trace_since :=
  apply events_since_app; simpl; rewrite <- ?app_assoc; reflexivity.

(** ** Closing the listener *)

(** C3, as amended: for a Listener holding a file lock, every call of
    [Close] releases the lock once and leaves the lock handle in place, so a
    single [Close] releases it exactly once and a second [Close] releases it
    again. *)
Theorem Listener_Close_releases_on_each_call
    (env : Env) (l : Listener) (fl : FileLocker) (w : World) :
  lockers w !! locker l = Some (Some fl) ->
  (exists err w1,
      run env (Listener_Close l) w = Returned err w1
      /\ releases (events_since w w1) = [fl]
      /\ lockers w1 = lockers w)
  /\ (exists err w2,
      run env (Listener_Close l ;; Listener_Close l) w = Returned err w2
      /\ releases (events_since w w2) = [fl; fl]).
Proof.
  intros Hl. split.
  - unfold Listener_Close. simpl. rewrite Hl. simpl.
    eexists. eexists. split; [reflexivity |]. split; [| reflexivity].
    erewrite events_since_app by (simpl; rewrite <- ?app_assoc; reflexivity).
    reflexivity.
  - unfold Listener_Close. simpl. rewrite Hl. simpl. rewrite Hl. simpl.
    eexists. eexists. split; [reflexivity |].
    erewrite events_since_app by (simpl; rewrite <- ?app_assoc; reflexivity).
    reflexivity.
Qed.

Lemma Listener_Close_releases_on_each_call_witness :
  lockers locked_world !! locker (sample_listener idle_handler)
    = Some (Some {| fl_path := "/run/xray.sock.lock" |})
  /\ exists err w1,
      run env_ok (Listener_Close (sample_listener idle_handler)) locked_world
        = Returned err w1
      /\ releases (events_since locked_world w1)
         = [{| fl_path := "/run/xray.sock.lock" |}]
      /\ lockers w1 = lockers locked_world.
Proof.
  split; [reflexivity |].
  exact (proj1 (Listener_Close_releases_on_each_call env_ok
                  (sample_listener idle_handler)
                  {| fl_path := "/run/xray.sock.lock" |} locked_world eq_refl)).
Defined.

(** C3, as stated, fails: closing twice a Listener that holds a file lock
    releases the lock twice, not exactly once. *)
Lemma Listener_Close_twice_releases_twice :
  releases (trace (result_world
     (run env_ok (Listener_Close (sample_listener idle_handler) ;;
                  Listener_Close (sample_listener idle_handler)) locked_world)))
    = [{| fl_path := "/run/xray.sock.lock" |}; {| fl_path := "/run/xray.sock.lock" |}]
  /\ length (releases (trace (result_world
       (run env_ok (Listener_Close (sample_listener idle_handler) ;;
                    Listener_Close (sample_listener idle_handler)) locked_world))))
     <> 1%nat.
Proof.
  split; [reflexivity |]. simpl. discriminate.
Qed.

(** ** The policy checks of ServeHTTP *)

Lemma isValidHost_outside (c : Config) (host : string) :
  Host c <> [] -> ~ In host (Host c) -> isValidHost c host = false.
Proof.
  intros Hne Hnin. unfold isValidHost.
  destruct (Host c) as [| h hosts] eqn:Hc; [contradiction |].
  apply not_true_is_false. intros Hex.
  apply existsb_exists in Hex as [x [Hin Heq]].
  apply String.eqb_eq in Heq. subst x. contradiction.
Qed.

Lemma isValidHost_inside (c : Config) (host : string) :
  In host (Host c) -> isValidHost c host = true.
Proof.
  intros Hin. unfold isValidHost.
  destruct (Host c) as [| h hosts] eqn:Hc; [reflexivity |].
  apply existsb_exists. exists host. split; [exact Hin | apply String.eqb_refl].
Qed.

Section HubFacts.
Context {api : NetAPI}.
Variable env : Env.

(** C1: a request whose Host is not in the allowed-host set (when that set
    is non-empty), or whose path does not start with the normalized prefix,
    gets status 404 and nothing else: [ServeHTTP] returns after the single
    call [WriteHeader(404)], and the handler is not called.  An empty
    allowed-host set matches any host. *)
Theorem ServeHTTP_rejects_with_404
    (l : Listener) (writer : Writer) (request : Request) (w : World) :
  (rejected (config l) request ->
     exists w',
       run env (ServeHTTP l writer request) w = Returned tt w'
       /\ events_since w w' = [ev (WriteHeader writer 404)]
       /\ response_status writer (events_since w w') = Some 404
       /\ handler_calls (events_since w w') = [])
  /\ (Host (config l) = [] ->
      forall host, isValidHost (config l) host = true).
Proof.
  split.
  - intros Hrej.
    assert (Hrun : run env (ServeHTTP l writer request) w
                   = Returned tt (emit (WriteHeader writer 404) w)).
    { unfold ServeHTTP. destruct Hrej as [[Hne Hnin] | Hpath].
      - rewrite (isValidHost_outside _ _ Hne Hnin). reflexivity.
      - destruct (isValidHost (config l) (req_Host request)); [| reflexivity].
        simpl. rewrite Hpath. reflexivity. }
    exists (emit (WriteHeader writer 404) w).
    assert (Hev : events_since w (emit (WriteHeader writer 404) w)
                  = [ev (WriteHeader writer 404)]) by trace_since.
    rewrite Hev. repeat split; try assumption.
    unfold response_status. simpl. unfold status_of. simpl.
    rewrite Nat.eqb_refl. reflexivity.
  - intros Hempty host. unfold isValidHost. rewrite Hempty. reflexivity.
Qed.









End HubFacts.

(** ** Examples on concrete requests *)







Lemma ServeHTTP_rejects_with_404_witness :
  rejected sample_config (sample_request "other.com" "/tunnel/x" "@" [])
  /\ exists w',
      run env_ok (ServeHTTP (api := sample_api) (sample_listener echo_handler)
                    sample_writer (sample_request "other.com" "/tunnel/x" "@" []))
          world0
      = Returned tt w'
      /\ events_since world0 w' = [ev (WriteHeader sample_writer 404)]
      /\ response_status sample_writer (events_since world0 w') = Some 404
      /\ handler_calls (events_since world0 w') = [].
Proof.
  assert (Hrej : rejected sample_config (sample_request "other.com" "/tunnel/x" "@" [])).
  { left. split; [discriminate |]. simpl. intros [H | []]. discriminate H. }
  split; [exact Hrej |].
  exact (proj1 (ServeHTTP_rejects_with_404 (api := sample_api) env_ok
                  (sample_listener echo_handler) sample_writer
                  (sample_request "other.com" "/tunnel/x" "@" []) world0) Hrej).
Defined.

(** ** Listen *)

Section ListenFacts.
Context {api : NetAPI}.


(** C10: when the protocol settings hold anything but the transport's
    configuration, [Listen] panics on the interface conversion before it has
    built anything: no locker field is allocated, no goroutine is started, no
    collaborator is called.  So [Listen] returns only when the protocol
    settings hold the transport's configuration. *)
Theorem Listen_panics_without_Config
    (env : Env) (ctx : Context) (address : Address) (port : Z)
    (streamSettings : MemoryStreamConfig) (h : Connection -> Proc unit)
    (w : World) :
  ((forall c, ProtocolSettings streamSettings <> SettingsHTTPConfig c) ->
     run env (Listen ctx address port streamSettings h) w
     = Panicked (PanicInterfaceConversion "*http.Config") w)
  /\ (forall r w',
        run env (Listen ctx address port streamSettings h) w = Returned r w' ->
        exists c, ProtocolSettings streamSettings = SettingsHTTPConfig c).
Proof.
  unfold Listen. destruct (ProtocolSettings streamSettings) as [| c | name]; split.
  - intros _. reflexivity.
  - intros r w' H. discriminate H.
  - intros Hne. exfalso. exact (Hne c eq_refl).
  - intros r w' _. exists c. reflexivity.
  - intros _. reflexivity.
  - intros r w' H. discriminate H.
Qed.

End ListenFacts.


Lemma Listen_panics_without_Config_witness :
  (forall c, ProtocolSettings (sample_settings SettingsNil) <> SettingsHTTPConfig c)
  /\ run env_ok
       (Listen (api := sample_api) sample_ctx (endpoint_address) 443
          (sample_settings SettingsNil) idle_handler) world0
     = Panicked (PanicInterfaceConversion "*http.Config") world0.
Proof.
  assert (H : forall c, ProtocolSettings (sample_settings SettingsNil)
                        <> SettingsHTTPConfig c) by (intros c; discriminate).
  split; [exact H |].
  exact (proj1 (Listen_panics_without_Config (api := sample_api) env_ok sample_ctx
                  (endpoint_address) 443 (sample_settings SettingsNil)
                  idle_handler world0) H).
Defined.

(** ** The static picker *)

Lemma pick_found_is_available (ws : list Reverse.Worker) (x : Reverse.Worker) :
  fst (Reverse.pick ws) = Some x -> In x ws /\ Reverse.IsAvailable x = true.
Proof.
  induction ws as [| y rest IH]; simpl; [discriminate |].
  destruct (Reverse.IsAvailable y) eqn:Hy; simpl.
  - intros H. injection H as ->. split; [left; reflexivity | exact Hy].
  - destruct (Reverse.pick rest) as [found kept]. simpl in *.
    intros H. destruct (IH H) as [Hin Hav]. split; [right; exact Hin | exact Hav].
Qed.

Lemma pick_none_iff (ws : list Reverse.Worker) :
  fst (Reverse.pick ws) = None <-> forallb (fun x => negb (Reverse.IsAvailable x)) ws = true.
Proof.
  induction ws as [| y rest IH]; simpl; [tauto |].
  destruct (Reverse.IsAvailable y) eqn:Hy; simpl.
  - split; discriminate.
  - destruct (Reverse.pick rest) as [found kept]. simpl in *. exact IH.
Qed.

(** A pick fails, with the no-available-worker error and no worker, exactly
    when no worker of the pool is available. *)
Lemma PickAvailable_fails_iff (p : Reverse.StaticMuxPicker) :
  forallb (fun x => negb (Reverse.IsAvailable x)) (Reverse.workers p) = true
  <-> (fst (fst (Reverse.PickAvailable p)) = None
       /\ snd (fst (Reverse.PickAvailable p)) = Some Reverse.ErrNoAvailableWorker).
Proof.
  rewrite <- pick_none_iff. unfold Reverse.PickAvailable.
  destruct (Reverse.pick (Reverse.workers p)) as [[x |] kept]; simpl.
  - split; [discriminate | intros [H _]; discriminate H].
  - split; [intros _; split; reflexivity | intros _; reflexivity].
Qed.

(** C5: a static picker constructed with zero workers is constructed without
    error, and [PickAvailable] on it returns a non-nil error and a nil
    worker. *)
Theorem PickAvailable_empty_pool_fails :
  snd (Reverse.NewStaticMuxPicker []) = None
  /\ fst (fst (Reverse.PickAvailable (fst (Reverse.NewStaticMuxPicker [])))) = None
  /\ snd (fst (Reverse.PickAvailable (fst (Reverse.NewStaticMuxPicker []))))
     <> None.
Proof.
  split; [reflexivity |].
  destruct (proj1 (PickAvailable_fails_iff (fst (Reverse.NewStaticMuxPicker [])))
              eq_refl) as [Hworker Herr].
  split; [exact Hworker |]. rewrite Herr. discriminate.
Qed.

(** ** Further properties of the flush adapter *)

Section AdapterFacts.
Variable env : Env.

(** One write on an open stream: what it returns and what it leaves. *)
Lemma flushWriter_Write_open (fw : flushWriter) (p : list Byte.byte) (w : World) :
  is_done w (fw_d fw) = false ->
  exists w1,
    run env (flushWriter_Write fw p) w
      = Returned (env_write env (fw_w fw) p w) w1
    /\ trace w1 = trace w ++ write_events (fw_w fw) p
    /\ dones w1 = dones w.
Proof.
  intros Hd. unfold flushWriter_Write, write_events. simpl. rewrite Hd. simpl.
  destruct (wr_flusher (fw_w fw)); simpl; eexists;
    (split; [reflexivity |]); (split; [| reflexivity]);
    simpl; rewrite <- ?app_assoc; reflexivity.
Qed.

(** X1: a series of writes through the flush adapter on a stream whose
    signal is not done reaches the destination in order, every write is
    followed by its own flush (when the destination can flush) before the
    next write starts, and every slice is attempted whatever the earlier
    writes returned: a failed write does not close the stream. *)
Theorem flushWriter_WriteAll_in_order
    (fw : flushWriter) (ps : list (list Byte.byte)) (w : World) :
  is_done w (fw_d fw) = false ->
  exists rs w',
    run env (flushWriter_WriteAll fw ps) w = Returned rs w'
    /\ events_since w w' = flat_map (write_events (fw_w fw)) ps
    /\ length rs = length ps
    /\ dones w' = dones w.
Proof.
  revert w. induction ps as [| p rest IH]; intros w Hd.
  - exists [], w. split; [reflexivity |]. split; [| split; reflexivity].
    apply events_since_app. symmetry. apply app_nil_r.
  - destruct (flushWriter_Write_open fw p w Hd) as [w1 [Hrun [Htr Hdn]]].
    assert (Hd1 : is_done w1 (fw_d fw) = false)
      by (unfold is_done; rewrite Hdn; exact Hd).
    destruct (IH w1 Hd1) as [rs [w' [Hrest [Hev [Hlen Hdn']]]]].
    exists (env_write env (fw_w fw) p w :: rs), w'.
    split; [| split; [| split]].
    + cbn [flushWriter_WriteAll]. rewrite run_bind, Hrun, run_bind, Hrest.
      reflexivity.
    + destruct (run_trace env (flushWriter_WriteAll fw rest) w1) as [t Ht].
      rewrite Hrest in Ht. cbn [result_world] in Ht.
      rewrite (events_since_app w1 w' t Ht) in Hev. subst t.
      apply events_since_app. rewrite Ht, Htr, <- app_assoc. reflexivity.
    + simpl. rewrite Hlen. reflexivity.
    + rewrite Hdn'. exact Hdn.
Qed.

(** X2: once the signal is done the stream stays closed: whatever program
    runs in between, a later write fails with the closed-pipe error, returns
    zero, and calls nothing. *)
Theorem flushWriter_Write_stays_closed
    {A : Type} (fw : flushWriter) (between : Proc A) (p : list Byte.byte)
    (w : World) :
  is_done w (fw_d fw) = true ->
  run env (flushWriter_Write fw p) (result_world (run env between w))
  = Returned (0, Some ErrClosedPipe) (result_world (run env between w)).
Proof.
  intros Hd. pose proof (run_done env between w (fw_d fw) Hd) as Hd'.
  unfold flushWriter_Write. simpl. rewrite Hd'. reflexivity.
Qed.

End AdapterFacts.

Lemma flushWriter_WriteAll_in_order_witness :
  is_done world0 0%nat = false
  /\ exists rs w',
      run env_write_fails
        (flushWriter_WriteAll {| fw_w := sample_writer; fw_d := 0%nat |}
           [[Byte.x68]; [Byte.x69]]) world0
      = Returned rs w'
      /\ events_since world0 w'
         = [ev (WriterWrite sample_writer [Byte.x68]); ev (Flush sample_writer);
            ev (WriterWrite sample_writer [Byte.x69]); ev (Flush sample_writer)]
      /\ length rs = 2%nat
      /\ dones w' = dones world0.
Proof.
  split; [reflexivity |].
  exact (flushWriter_WriteAll_in_order env_write_fails
           {| fw_w := sample_writer; fw_d := 0%nat |}
           [[Byte.x68]; [Byte.x69]] world0 eq_refl).
Defined.

Lemma flushWriter_Write_stays_closed_witness :
  is_done {| dones := [true]; lockers := []; goroutines := []; trace := [] |} 0%nat
    = true
  /\ run env_ok (flushWriter_Write {| fw_w := sample_writer; fw_d := 0%nat |} [Byte.x68])
       (result_world
          (run env_ok
             (flushWriter_Write {| fw_w := sample_writer; fw_d := 1%nat |} [Byte.x69])
             {| dones := [true]; lockers := []; goroutines := []; trace := [] |}))
     = Returned (0, Some ErrClosedPipe)
         (result_world
            (run env_ok
               (flushWriter_Write {| fw_w := sample_writer; fw_d := 1%nat |} [Byte.x69])
               {| dones := [true]; lockers := []; goroutines := []; trace := [] |})).
Proof.
  split; [reflexivity |].
  exact (flushWriter_Write_stays_closed env_ok
           {| fw_w := sample_writer; fw_d := 0%nat |}
           (flushWriter_Write {| fw_w := sample_writer; fw_d := 1%nat |} [Byte.x69])
           [Byte.x68]
           {| dones := [true]; lockers := []; goroutines := []; trace := [] |}
           eq_refl).
Defined.

(** ** Further properties of Close *)

Section CloseFacts.
Variable env : Env.

(** X3: closing a Listener that holds no file lock releases nothing and
    prints nothing: its only call is [server.Close], whose error it
    returns. *)
Theorem Listener_Close_without_lock (l : Listener) (e : option error) (w : World) :
  mjoin (lockers w !! locker l) = None ->
  (forall ws, env_server_close env (server l) ws = e) ->
  exists w1,
    run env (Listener_Close l) w = Returned e w1
    /\ events_since w w1 = [ev (ServerClose (server l))].
Proof.
  intros Hl He. unfold Listener_Close. simpl. rewrite Hl. simpl. rewrite He.
  eexists. split; [reflexivity |]. trace_since.
Qed.

(** X4: closing a Listener that holds a file lock prints the release line,
    releases the lock, and only then closes the server; the error returned
    is the one of [server.Close]. *)
Theorem Listener_Close_releases_before_closing
    (l : Listener) (fl : FileLocker) (e : option error) (w : World) :
  lockers w !! locker l = Some (Some fl) ->
  (forall ws, env_server_close env (server l) ws = e) ->
  exists w1,
    run env (Listener_Close l) w = Returned e w1
    /\ events_since w w1
       = [ev (FprintlnStderr "RELEASE LOCK"); ev (Release fl);
          ev (ServerClose (server l))].
Proof.
  intros Hl He. unfold Listener_Close. simpl. rewrite Hl. simpl. rewrite He.
  eexists. split; [reflexivity |]. trace_since.
Qed.

End CloseFacts.

Lemma Listener_Close_without_lock_witness :
  mjoin (lockers world0 !! locker (sample_listener idle_handler)) = None
  /\ (forall ws, env_server_close env_write_fails
                   (server (sample_listener idle_handler)) ws
                 = Some (ErrExternal "close failed"))
  /\ exists w1,
      run env_write_fails (Listener_Close (sample_listener idle_handler)) world0
      = Returned (Some (ErrExternal "close failed")) w1
      /\ events_since world0 w1 = [ev (ServerClose sample_server)].
Proof.
  split; [reflexivity |]. split; [intros ws; reflexivity |].
  exact (Listener_Close_without_lock env_write_fails (sample_listener idle_handler)
           (Some (ErrExternal "close failed")) world0 eq_refl
           (fun ws => eq_refl)).
Defined.

Lemma Listener_Close_releases_before_closing_witness :
  lockers locked_world !! locker (sample_listener idle_handler)
    = Some (Some socket_lock)
  /\ exists w1,
      run env_ok (Listener_Close (sample_listener idle_handler)) locked_world
      = Returned None w1
      /\ events_since locked_world w1
         = [ev (FprintlnStderr "RELEASE LOCK"); ev (Release socket_lock);
            ev (ServerClose sample_server)].
Proof.
  split; [reflexivity |].
  exact (Listener_Close_releases_before_closing env_ok (sample_listener idle_handler)
           socket_lock None locked_world eq_refl (fun ws => eq_refl)).
Defined.

(** ** Further properties of ServeHTTP *)



Section ServeFacts.
Context {api : NetAPI}.
Variable env : Env.





End ServeFacts.

(** ** Further properties of Listen *)

Section ListenSteps.
Context {api : NetAPI}.
Variable env : Env.



End ListenSteps.

Section ListenMore.
Context {api : NetAPI}.
Variable env : Env.
Variables (ctx : Context) (address : Address) (port : Z).
Variables (streamSettings : MemoryStreamConfig) (h : Connection -> Proc unit).
Variables (cfg : Config) (w : World).
Hypothesis Hsettings : ProtocolSettings streamSettings = SettingsHTTPConfig cfg.




End ListenMore.

Section ListenLock.
Context {api : NetAPI}.
Variable env : Env.
Variables (ctx : Context) (address : Address).
Variables (streamSettings : MemoryStreamConfig) (h : Connection -> Proc unit).
Variables (cfg : Config) (w : World).
Hypothesis Hsettings : ProtocolSettings streamSettings = SettingsHTTPConfig cfg.



End ListenLock.

Section ListenNoLock.
Context {api : NetAPI}.
Variable env : Env.
Variables (ctx : Context) (address : Address) (port : Z).
Variables (streamSettings : MemoryStreamConfig) (h : Connection -> Proc unit).
Variables (cfg : Config) (w : World).
Hypothesis Hsettings : ProtocolSettings streamSettings = SettingsHTTPConfig cfg.



End ListenNoLock.

(** ** Examples for the further properties *)











